(** * School-image backend: the listing / creation contract of [main.py]

    A shallow embedding of the two handlers of [src/main.py] that talk to
    the document store, [school_images] (GET /api/school-images) and
    [add_school_image] (POST /api/school-images), together with the
    request schema [SchoolImageIn], and of the diagnostic handler
    [test_database] (GET /test).

    Python dictionaries are finite maps from strings to JSON-like values,
    the module-level handle [db] is an [option], a raised exception is the
    left injection of a sum, and [HTTPException] is a constructor of the
    response type.  The module [database] that [main.py] imports is not
    part of the sources at hand: the handlers are written over an
    interface ([DatabaseModule]), and one instance of it is modelled from
    the specification ([SpecDatabase]). *)

From stdpp Require Import gmap strings list fin_maps pretty.

Set Warnings "-register-all".
Open Scope Z_scope.
Open Scope string_scope.

(** ** Values and documents *)

(** A value of pydantic's type [HttpUrl]: the object that validation
    builds from the url string of a request.  [url_text] is [str] of the
    object, the url in normal form; it need not be the string that was
    sent (validation lower-cases the host, gives a bare host the path
    "/", ...), and a string that is no absolute http(s) url gives no
    such object: the request is answered 422 before any handler runs.
    Validation is pydantic's and is not part of this development. *)
Record HttpUrl : Type := mkHttpUrl { url_text : string }.

(** The values a document can hold. [VUrl] is a url object as
    [model_dump] leaves it in the dict; [VObjectId] stands for an
    identifier assigned by the store. *)
Inductive value : Type :=
  | VNone
  | VBool (b : bool)
  | VInt (z : Z)
  | VStr (s : string)
  | VList (l : list value)
  | VObjectId (oid : string)
  | VUrl (u : HttpUrl).

(** A Python [dict] with string keys. *)
Abbreviation document := (gmap string value).

(** Structural equality on values, as a boolean. *)
Fixpoint value_eqb (a b : value) : bool :=
  match a, b with
  | VNone, VNone => true
  | VBool x, VBool y => Bool.eqb x y
  | VInt x, VInt y => Z.eqb x y
  | VStr x, VStr y => String.eqb x y
  | VObjectId x, VObjectId y => String.eqb x y
  | VUrl x, VUrl y => String.eqb (url_text x) (url_text y)
  | VList xs, VList ys =>
      (fix all2 (xs ys : list value) {struct xs} : bool :=
         match xs, ys with
         | [], [] => true
         | x :: xs', y :: ys' => value_eqb x y && all2 xs' ys'
         | _, _ => false
         end) xs ys
  | _, _ => false
  end.

(** [d.get(key)] and [d.get(key, default)]: the value under [key] when the
    key is present (whatever the value, [None] included), the default
    otherwise.  The one-argument form has default [None]. *)
Definition dict_get (d : document) (key : string) (dflt : value) : value :=
  match d !! key with
  | Some v => v
  | None => dflt
  end.

(** ** Exceptions and responses *)

(** A raised Python exception: its class name and the text [str(e)] gives. *)
Record PyException : Type := Exception {
  exc_class : string;
  exc_text : string
}.

Definition str (e : PyException) : string := exc_text e.

(** What a call that may raise produces. *)
Abbreviation raises A := (PyException + A)%type.

(** What a handler gives back to the framework: a JSON body, or a raised
    [HTTPException(status_code, detail)]. *)
Inductive response (A : Type) : Type :=
  | Ok (body : A)
  | HTTPException (status_code : Z) (detail : string).
Arguments Ok {A} body.
Arguments HTTPException {A} status_code detail.

(** The body [{"images": images}]. *)
Record ImagesBody : Type := mkImages { images : list document }.

(** The body [{"id": new_id}]. *)
Record IdBody : Type := mkId { id : string }.

(** ** The request schema (lines 30-34) *)

Record SchoolImageIn : Type := mkSchoolImageIn {
  url : HttpUrl;
  title : option string;
  tags : option (list string);
  approved : bool
}.

(** Construction of a [SchoolImageIn] from the url object that validation
    built and the three fields that have a default.  For these, the outer
    [None] says that the field was left out; [Some None] is an explicit
    JSON [null].  Defaults: [title = None], [tags = []],
    [approved = True]. *)
Definition SchoolImageIn_init (u : HttpUrl)
    (t : option (option string))
    (tg : option (option (list string)))
    (a : option bool) : SchoolImageIn :=
  {| url := u;
     title := default None t;
     tags := default (Some []) tg;
     approved := default true a |}.

Definition dump_opt_str (o : option string) : value :=
  match o with
  | Some s => VStr s
  | None => VNone
  end.

Definition dump_opt_strs (o : option (list string)) : value :=
  match o with
  | Some l => VList (VStr <$> l)
  | None => VNone
  end.

(** [payload.model_dump()]: every field of the model, as a dict; the url
    stays the url object. *)
Definition model_dump (payload : SchoolImageIn) : document :=
  {[ "url" := VUrl (url payload);
     "title" := dump_opt_str (title payload);
     "tags" := dump_opt_strs (tags payload);
     "approved" := VBool (approved payload) ]}.

(** ** The imported [database] module, as an interface *)

(** [Store] is what the handle [db] gives access to.  A query reads the
    store and returns documents or raises; an insertion returns the new
    identifier or raises, and leaves a store behind in both cases. *)
Class DatabaseModule : Type := {
  Store : Type;
  get_documents : string -> document -> Z -> Store -> raises (list document);
  create_document : string -> document -> Store -> raises string * Store
}.

(** ** The handlers *)

(** The entry appended for one document of the query result (lines 48-52). *)
Definition project (d : document) : document :=
  {[ "url" := dict_get d "url" VNone;
     "title" := dict_get d "title" VNone;
     "tags" := dict_get d "tags" (VList []) ]}.

Definition placeholder (u t : string) (tg : list string) : document :=
  {[ "url" := VStr u; "title" := VStr t; "tags" := VList (VStr <$> tg) ]}.

(** The literal list of lines 56-72. *)
Definition placeholders : list document :=
  [ placeholder
      "https://images.unsplash.com/photo-1460518451285-97b6aa326961?q=80&w=1600&auto=format&fit=crop"
      "Campus lawn (placeholder)" ["campus"; "placeholder"];
    placeholder
      "https://images.unsplash.com/photo-1523580846011-d3a5bc25702b?q=80&w=1600&auto=format&fit=crop"
      "Courtyard (placeholder)" ["courtyard"; "placeholder"];
    placeholder
      "https://images.unsplash.com/photo-1562774053-701939374585?q=80&w=1600&auto=format&fit=crop"
      "Hallway (placeholder)" ["hallway"; "placeholder"] ].

(** The filter [{"approved": True}] of line 46. *)
Definition approved_filter : document := {[ "approved" := VBool true ]}.

Section Handlers.
Context {DB : DatabaseModule}.

(** Lines 44-52: the list [images] after the [if db is not None] block,
    or the exception that left the block. *)
Definition collect_images (db : option Store) (limit : Z)
    : raises (list document) :=
  match db with
  | None => inr []
  | Some s =>
      match get_documents "schoolimage" approved_filter limit s with
      | inl e => inl e
      | inr docs => inr (project <$> docs)
      end
  end.

(** [school_images(limit)], lines 38-77. *)
Definition school_images (db : option Store) (limit : Z)
    : response ImagesBody :=
  match collect_images db limit with
  | inl e => HTTPException 500 (str e)
  | inr imgs =>
      match imgs with
      | [] => Ok (mkImages placeholders)
      | _ :: _ => Ok (mkImages imgs)
      end
  end.

(** [add_school_image(payload)], lines 81-91: the response and the
    handle with the store as the call left it. *)
Definition add_school_image (db : option Store) (payload : SchoolImageIn)
    : response IdBody * option Store :=
  match db with
  | None => (HTTPException 503 "Database not available", None)
  | Some s =>
      match create_document "schoolimage" (model_dump payload) s with
      | (inr new_id, s') => (Ok (mkId new_id), Some s')
      | (inl e, s') => (HTTPException 500 (str e), Some s')
      end
  end.
End Handlers.

(** ** The store, modelled from the specification *)

(** Modelled from the spec: the contents behind the handle [db] of the
    absent module [database].  A collection is the list of its documents
    in store order; [next_id] numbers the identifiers handed out. *)
Record SpecStore : Type := mkSpecStore {
  collections : gmap string (list document);
  next_id : N
}.

Definition collection (name : string) (s : SpecStore) : list document :=
  default [] (collections s !! name).

(** Modelled from the spec: what "matching a filter" means for the query
    of the absent module [database].  A document matches when it holds,
    under every key of the filter, the value the filter gives. *)
Definition matches (flt d : document) : bool :=
  forallb (fun kv => match d !! kv.1 with
                     | Some w => value_eqb w kv.2
                     | None => false
                     end) (map_to_list flt).

(** Modelled from the spec: [get_documents] of the absent module
    [database], "query documents matching a filter, capped at N, in store
    order".  A cap below zero leaves no room for any document. *)
Definition spec_get_documents (name : string) (flt : document) (limit : Z)
    (s : SpecStore) : raises (list document) :=
  inr (take (Z.to_nat limit) (List.filter (matches flt) (collection name s))).

(** The documents of the collection "schoolimage" that the filter of the
    listing selects, in store order. *)
Definition approved_docs (s : SpecStore) : list document :=
  List.filter (matches approved_filter) (collection "schoolimage" s).

(** Modelled from the spec: [create_document] of the absent module
    [database], "insert one document, return its generated identifier".
    The store keeps the document under the identifier it assigns, after
    the documents already in the collection. *)
Definition spec_create_document (name : string) (data : document)
    (s : SpecStore) : raises string * SpecStore :=
  let new_id := pretty (next_id s) in
  (inr new_id,
   {| collections :=
        <[name := (collection name s ++ [<["_id" := VObjectId new_id]> data])%list]>
          (collections s);
      next_id := N.succ (next_id s) |}).

(** Modelled from the spec: the absent module [database] as a whole, its
    two operations over [SpecStore]. *)
#[global] Instance SpecDatabase : DatabaseModule := {|
  Store := SpecStore;
  get_documents := spec_get_documents;
  create_document := spec_create_document
|}.

(** A store whose every operation raises the same exception: the handle
    is there, the server behind it is not. *)
Definition failing_database (e : PyException) : DatabaseModule := {|
  Store := unit;
  get_documents := fun _ _ _ _ => inl e;
  create_document := fun _ _ s => (inl e, s)
|}.

(** Sample data. *)
Definition doc_gym : document :=
  {[ "_id" := VObjectId "0"; "url" := VStr "https://example.com/a.jpg";
     "title" := VStr "Gym"; "tags" := VList [VStr "gym"];
     "approved" := VBool true ]}.

Definition doc_lab : document :=
  {[ "_id" := VObjectId "1"; "url" := VStr "https://example.com/b.jpg";
     "title" := VStr "Lab"; "tags" := VList [VStr "lab"];
     "approved" := VBool true ]}.

Definition doc_hidden : document :=
  {[ "_id" := VObjectId "2"; "url" := VStr "https://example.com/c.jpg";
     "title" := VStr "Staff room"; "tags" := VList [];
     "approved" := VBool false ]}.

(** A document with no [url] and no [title], and [tags] set to null. *)
Definition doc_sparse : document :=
  {[ "_id" := VObjectId "3"; "tags" := VNone; "approved" := VBool true ]}.

Definition store_of (docs : list document) : SpecStore :=
  {| collections := {[ "schoolimage" := docs ]};
     next_id := N.of_nat (length docs) |}.

Definition empty_store : SpecStore := store_of [].

(** ** The diagnostic endpoint (lines 94-135) *)

(** What [test_database] uses of the handle [_db]: its attribute [name],
    when it has one ([hasattr(_db, 'name')]), and what a call of
    [list_collection_names()] gives. *)
Record DbHandle : Type := mkDbHandle {
  name_attr : option value;
  list_collection_names : raises (list string)
}.

(** How [from database import db as _db] ends: with [ImportError], with
    another exception, or with [_db] bound to the handle or to [None]. *)
Inductive import_outcome : Type :=
  | ImportError
  | ImportRaises (e : PyException)
  | Imported (_db : option DbHandle).

(** The process environment, [os.environ]. *)
Abbreviation environ := (gmap string string).

Definition getenv (env : environ) (key : string) : option string :=
  env !! key.

(** Truth value of what [os.getenv] returns: [None] and the empty string
    are false. *)
Definition truthy (o : option string) : bool :=
  match o with
  | None => false
  | Some EmptyString => false
  | Some (String _ _) => true
  end.

(** Text is held as the bytes of its UTF-8 encoding, as the literals of
    this development are.  A byte of the form 10xxxxxx continues the
    character begun before it; every other byte begins a character. *)
Definition continuation_byte (c : Ascii.ascii) : bool :=
  match c with
  | Ascii.Ascii _ _ _ _ _ _ b6 b7 => b7 && negb b6
  end.

(** [len(text)]: the number of characters of the text. *)
Fixpoint char_length (text : string) : nat :=
  match text with
  | EmptyString => O
  | String c rest =>
      if continuation_byte c then char_length rest
      else S (char_length rest)
  end.

(** Whether a text starts at a character boundary: it is empty or its
    first byte begins a character. *)
Definition begins_character (text : string) : bool :=
  match text with
  | EmptyString => true
  | String c _ => negb (continuation_byte c)
  end.

(** [text[:n]]: the first [n] characters of the text, all of it when it
    has fewer.  [n] counts the characters that may still begin; the bytes
    that continue a character already begun are kept with it. *)
Fixpoint slice_to (n : nat) (text : string) : string :=
  match text with
  | EmptyString => EmptyString
  | String c rest =>
      if continuation_byte c then String c (slice_to n rest)
      else
        match n with
        | O => EmptyString
        | S n' => String c (slice_to n' rest)
        end
  end.

(** The dict of lines 97-104. *)
Definition initial_response : document :=
  {[ "backend" := VStr "✅ Running";
     "database" := VStr "❌ Not Available";
     "database_url" := VNone;
     "database_name" := VNone;
     "connection_status" := VStr "Not Connected";
     "collections" := VList [] ]}.

(** Lines 117-122: the connectivity probe and what it writes. *)
Definition probe_collections (_db : DbHandle) (response : document)
    : document :=
  match list_collection_names _db with
  | inr collections =>
      <["database" := VStr "✅ Connected & Working"]>
        (<["collections" := VList (VStr <$> take 10 collections)]> response)
  | inl e =>
      <["database" :=
          VStr ("⚠️  Connected but Error: " ++ slice_to 50 (str e))]> response
  end.

(** Lines 106-129: the outer [try] with its two handlers. *)
Definition inspect_database (o : import_outcome) (response : document)
    : document :=
  match o with
  | Imported (Some _db) =>
      let response := <["database" := VStr "✅ Available"]> response in
      let response := <["database_url" := VStr "✅ Configured"]> response in
      let response :=
        <["database_name" :=
            match name_attr _db with
            | Some n => n
            | None => VStr "✅ Connected"
            end]> response in
      let response := <["connection_status" := VStr "Connected"]> response in
      probe_collections _db response
  | Imported None =>
      <["database" := VStr "⚠️  Available but not initialized"]> response
  | ImportError =>
      <["database" :=
          VStr "❌ Database module not found (run enable-database first)"]>
        response
  | ImportRaises e =>
      <["database" := VStr ("❌ Error: " ++ slice_to 50 (str e))]> response
  end.

(** ["✅ Set" if os.getenv(key) else "❌ Not Set"]. *)
Definition env_flag (env : environ) (key : string) : value :=
  VStr (if truthy (getenv env key) then "✅ Set" else "❌ Not Set").

(** [test_database()], lines 95-135. *)
Definition test_database (o : import_outcome) (env : environ) : document :=
  let response := inspect_database o initial_response in
  let response :=
    <["database_url" := env_flag env "DATABASE_URL"]> response in
  let response :=
    <["database_name" := env_flag env "DATABASE_NAME"]> response in
  response.

(** Sample handles. *)
Definition handle_ok : DbHandle :=
  {| name_attr := Some (VStr "school");
     list_collection_names :=
       inr ["c01"; "c02"; "c03"; "c04"; "c05"; "c06";
            "c07"; "c08"; "c09"; "c10"; "c11"; "c12"] |}.

(** A handle whose probe fails with sixty times the two-byte character
    "é". *)
Definition handle_accents : DbHandle :=
  {| name_attr := None;
     list_collection_names :=
       inl (Exception "OperationFailure"
              (String.concat "" (replicate 60 "é"))) |}.

Definition handle_down : DbHandle :=
  {| name_attr := Some (VStr "school");
     list_collection_names :=
       inl (Exception "ServerSelectionTimeoutError"
              "localhost:27017: [Errno 111] Connection refused, Timeout: 30s, Topology Description: unknown") |}.

(** * Properties *)

(** ** Values, dictionaries and the projection *)

Lemma value_eqb_true_bool (w : value) :
  value_eqb w (VBool true) = true <-> w = VBool true.
Proof.
  destruct w as [ | [ | ] | | | | | ]; simpl; split; intros E;
    solve [ reflexivity | discriminate E ].
Qed.

Lemma dict_get_present (d : document) (key : string) (dflt v : value) :
  d !! key = Some v -> dict_get d key dflt = v.
Proof. intros E. unfold dict_get. now rewrite E. Qed.

Lemma dict_get_missing (d : document) (key : string) (dflt : value) :
  d !! key = None -> dict_get d key dflt = dflt.
Proof. intros E. unfold dict_get. now rewrite E. Qed.

Lemma project_url (d : document) :
  project d !! "url" = Some (dict_get d "url" VNone).
Proof. unfold project. now simplify_map_eq. Qed.

Lemma project_title (d : document) :
  project d !! "title" = Some (dict_get d "title" VNone).
Proof. unfold project. now simplify_map_eq. Qed.

Lemma project_tags (d : document) :
  project d !! "tags" = Some (dict_get d "tags" (VList [])).
Proof. unfold project. now simplify_map_eq. Qed.

Lemma project_dom (d : document) :
  dom (project d) = ({[ "url"; "title"; "tags" ]} : gset string).
Proof.
  unfold project. rewrite !dom_insert_L, dom_singleton_L. set_solver.
Qed.

Lemma project_other (d : document) (key : string) :
  key <> "url" -> key <> "title" -> key <> "tags" -> project d !! key = None.
Proof.
  intros Hu Ht Hg. unfold project.
  rewrite !lookup_insert_ne by congruence. apply lookup_singleton_ne; congruence.
Qed.

(** ** The handlers, over any implementation of the database module *)

Section HandlerFacts.
Context {DB : DatabaseModule}.

Lemma collect_images_absent (limit : Z) : collect_images None limit = inr [].
Proof. reflexivity. Qed.

(** What the listing answers once the query has returned. *)
Lemma school_images_of_query (s : Store) (limit : Z) (docs : list document) :
  get_documents "schoolimage" approved_filter limit s = inr docs ->
  school_images (Some s) limit =
    Ok (mkImages (match docs with
                  | [] => placeholders
                  | _ :: _ => project <$> docs
                  end)).
Proof.
  intros Q. unfold school_images, collect_images. rewrite Q.
  destruct docs; reflexivity.
Qed.

(** What the listing answers once the query has raised. *)
Lemma school_images_of_raise (s : Store) (limit : Z) (e : PyException) :
  get_documents "schoolimage" approved_filter limit s = inl e ->
  school_images (Some s) limit = HTTPException 500 (str e).
Proof.
  intros Q. unfold school_images, collect_images. now rewrite Q.
Qed.

(** The entries of a non-empty query result, position by position. *)
Lemma listed_entry (s : Store) (limit : Z) (docs : list document)
    (i : nat) (d : document) :
  get_documents "schoolimage" approved_filter limit s = inr docs ->
  docs !! i = Some d ->
  exists imgs,
    school_images (Some s) limit = Ok (mkImages imgs)
    /\ length imgs = length docs
    /\ imgs !! i = Some (project d).
Proof.
  intros Q Hd. rewrite (school_images_of_query _ _ _ Q).
  destruct docs as [ | d0 docs ]; [ discriminate Hd | ].
  exists (project <$> d0 :: docs). split; [ reflexivity | ].
  split; [ apply length_fmap | ].
  rewrite list_lookup_fmap, Hd. reflexivity.
Qed.

(** C2: with no store handle, the listing answers the three fixed
    placeholder entries, in their fixed order, whatever [limit] is. *)
Theorem school_images_without_store (limit : Z) :
  school_images None limit = Ok (mkImages placeholders)
  /\ length placeholders = 3%nat
  /\ (fun e : document => e !! "title") <$> placeholders =
       [ Some (VStr "Campus lawn (placeholder)");
         Some (VStr "Courtyard (placeholder)");
         Some (VStr "Hallway (placeholder)") ]
  /\ (fun e : document => e !! "tags") <$> placeholders =
       [ Some (VList [VStr "campus"; VStr "placeholder"]);
         Some (VList [VStr "courtyard"; VStr "placeholder"]);
         Some (VList [VStr "hallway"; VStr "placeholder"]) ]
  /\ (fun e : document => e !! "url") <$> placeholders =
       [ Some (VStr "https://images.unsplash.com/photo-1460518451285-97b6aa326961?q=80&w=1600&auto=format&fit=crop");
         Some (VStr "https://images.unsplash.com/photo-1523580846011-d3a5bc25702b?q=80&w=1600&auto=format&fit=crop");
         Some (VStr "https://images.unsplash.com/photo-1562774053-701939374585?q=80&w=1600&auto=format&fit=crop") ].
Proof.
  split_and!; vm_compute; reflexivity.
Qed.

(** C3: with a store handle whose query returns no document, the listing
    answers the same placeholder list as without a handle. *)
Theorem school_images_empty_result (s : Store) (limit : Z) :
  get_documents "schoolimage" approved_filter limit s = inr [] ->
  school_images (Some s) limit = Ok (mkImages placeholders)
  /\ school_images (Some s) limit = school_images None limit.
Proof.
  intros Q. rewrite (school_images_of_query _ _ _ Q). split; reflexivity.
Qed.

(** C7: the listing answers a body when there is no store handle; it
    answers an error exactly when the query raised, and then the status is
    500 and the detail is the text of the exception. *)
Theorem school_images_error_iff :
  (forall limit : Z, exists body, school_images None limit = Ok body)
  /\ (forall (db : option Store) (limit code : Z) (detail : string),
        school_images db limit = HTTPException code detail <->
        exists (s : Store) (e : PyException),
          db = Some s
          /\ get_documents "schoolimage" approved_filter limit s = inl e
          /\ code = 500 /\ detail = str e).
Proof.
  split.
  - intros limit. eexists. reflexivity.
  - intros db limit code detail. split.
    + destruct db as [ s | ]; [ | discriminate ].
      destruct (get_documents "schoolimage" approved_filter limit s)
        as [ e | docs ] eqn:Q.
      * rewrite (school_images_of_raise _ _ _ Q). intros E.
        injection E as <- <-. now exists s, e.
      * rewrite (school_images_of_query _ _ _ Q). discriminate.
    + intros (s & e & -> & Q & -> & ->). now apply school_images_of_raise.
Qed.

(** C6: with no store handle, creation answers 503 without calling the
    store: the outcome is the same for every implementation of
    [create_document], and the handle is given back as it was. *)
Theorem add_school_image_without_store (payload : SchoolImageIn) :
  add_school_image None payload =
    (HTTPException 503 "Database not available", None).
Proof. reflexivity. Qed.

(** C8: every document the query returns is listed, at its position, as
    an entry with the keys url, title and tags and no other key; the
    values are those the document holds under these keys, and neither
    approved nor the identifier of the store is carried over. *)
Theorem school_images_projects (s : Store) (limit : Z)
    (docs : list document) (i : nat) (d : document) :
  get_documents "schoolimage" approved_filter limit s = inr docs ->
  docs !! i = Some d ->
  exists (imgs : list document) (e : document),
    school_images (Some s) limit = Ok (mkImages imgs)
    /\ length imgs = length docs
    /\ imgs !! i = Some e
    /\ dom e = ({[ "url"; "title"; "tags" ]} : gset string)
    /\ e !! "url" = Some (dict_get d "url" VNone)
    /\ e !! "title" = Some (dict_get d "title" VNone)
    /\ e !! "tags" = Some (dict_get d "tags" (VList []))
    /\ e !! "approved" = None
    /\ e !! "_id" = None
    /\ (forall key : string,
          key <> "url" -> key <> "title" -> key <> "tags" -> e !! key = None).
Proof.
  intros Q Hd.
  destruct (listed_entry _ _ _ _ _ Q Hd) as (imgs & R & L & E).
  exists imgs, (project d).
  split_and!; try assumption.
  - apply project_dom.
  - apply project_url.
  - apply project_title.
  - apply project_tags.
  - now apply project_other.
  - now apply project_other.
  - intros key. apply project_other.
Qed.

(** C10: once the query has returned, the listing answers a body, never
    an error, whatever the documents hold.  A document without url (or
    title) is listed with null under that key; the empty list stands in
    for tags only when the document has no tags key, and a document whose
    tags key holds null is listed with tags null. *)
Theorem school_images_projection_total (s : Store) (limit : Z)
    (docs : list document) :
  get_documents "schoolimage" approved_filter limit s = inr docs ->
  (exists imgs, school_images (Some s) limit = Ok (mkImages imgs))
  /\ (forall (i : nat) (d : document),
        docs !! i = Some d ->
        exists (imgs : list document) (e : document),
          school_images (Some s) limit = Ok (mkImages imgs)
          /\ imgs !! i = Some e
          /\ (d !! "url" = None -> e !! "url" = Some VNone)
          /\ (d !! "title" = None -> e !! "title" = Some VNone)
          /\ (d !! "tags" = None -> e !! "tags" = Some (VList []))
          /\ (d !! "tags" = Some VNone -> e !! "tags" = Some VNone)
          /\ (forall v : value, d !! "tags" = Some v -> e !! "tags" = Some v)).
Proof.
  intros Q. split.
  - rewrite (school_images_of_query _ _ _ Q). eexists. reflexivity.
  - intros i d Hd.
    destruct (listed_entry _ _ _ _ _ Q Hd) as (imgs & R & _ & E).
    exists imgs, (project d). split; [ exact R | ]. split; [ exact E | ].
    split_and!.
    + intros M. rewrite project_url. now rewrite dict_get_missing.
    + intros M. rewrite project_title. now rewrite dict_get_missing.
    + intros M. rewrite project_tags. now rewrite dict_get_missing.
    + intros M. rewrite project_tags. now rewrite (dict_get_present _ _ _ _ M).
    + intros v M. rewrite project_tags. now rewrite (dict_get_present _ _ _ _ M).
Qed.

(** C9: a payload built without a title has title [None]; the record
    handed to the store for insertion is [model_dump] of it, which holds
    null under title, next to the url, tags and approved of the payload. *)
Theorem add_school_image_title_omitted (u : HttpUrl)
    (tg : option (option (list string))) (a : option bool) :
  let payload := SchoolImageIn_init u None tg a in
  title payload = None
  /\ model_dump payload !! "title" = Some VNone
  /\ dom (model_dump payload)
       = ({[ "url"; "title"; "tags"; "approved" ]} : gset string)
  /\ forall s : Store,
       add_school_image (Some s) payload =
         match create_document "schoolimage" (model_dump payload) s with
         | (inr new_id, s') => (Ok (mkId new_id), Some s')
         | (inl e, s') => (HTTPException 500 (str e), Some s')
         end.
Proof.
  intros payload. split; [ reflexivity | ].
  split; [ unfold model_dump; now simplify_map_eq | ].
  split; [ | reflexivity ].
  unfold model_dump. rewrite !dom_insert_L, dom_singleton_L. set_solver.
Qed.

End HandlerFacts.

(** ** The handlers over the store modelled from the specification *)

Lemma matches_approved (d : document) :
  matches approved_filter d = true <-> d !! "approved" = Some (VBool true).
Proof.
  unfold matches, approved_filter. rewrite map_to_list_singleton. simpl.
  destruct (d !! "approved") as [ w | ].
  - rewrite andb_true_r, value_eqb_true_bool.
    split; [ now intros -> | now intros [= ->] ].
  - split; discriminate.
Qed.

Lemma spec_query_approved (s : SpecStore) (limit : Z) :
  get_documents (DatabaseModule := SpecDatabase)
    "schoolimage" approved_filter limit s
  = inr (take (Z.to_nat limit) (approved_docs s)).
Proof. reflexivity. Qed.

(** The listing over the modelled store, in one equation. *)
Lemma spec_listing (s : SpecStore) (limit : Z) :
  school_images (Some s) limit =
    Ok (mkImages (match take (Z.to_nat limit) (approved_docs s) with
                  | [] => placeholders
                  | d :: docs => project <$> d :: docs
                  end)).
Proof.
  etransitivity;
    [ exact (school_images_of_query (DB := SpecDatabase) s limit _
               (spec_query_approved s limit)) | ].
  now destruct (take (Z.to_nat limit) (approved_docs s)).
Qed.

Lemma approved_docs_spec (s : SpecStore) (d : document) :
  d ∈ approved_docs s <->
  d ∈ collection "schoolimage" s /\ d !! "approved" = Some (VBool true).
Proof.
  unfold approved_docs.
  rewrite !list_elem_of_In, filter_In, matches_approved. reflexivity.
Qed.

Lemma collection_after_insert (s : SpecStore) (data : document) :
  collection "schoolimage" (spec_create_document "schoolimage" data s).2
  = (collection "schoolimage" s
       ++ [<["_id" := VObjectId (pretty (next_id s))]> data])%list.
Proof.
  unfold collection at 1. simpl. now rewrite lookup_insert_eq.
Qed.

Lemma approved_docs_after_insert (s : SpecStore) (data : document) :
  data !! "approved" = Some (VBool true) ->
  approved_docs (spec_create_document "schoolimage" data s).2
  = (approved_docs s
       ++ [<["_id" := VObjectId (pretty (next_id s))]> data])%list.
Proof.
  intros A. unfold approved_docs.
  rewrite collection_after_insert, List.filter_app. simpl.
  assert (matches approved_filter
            (<["_id" := VObjectId (pretty (next_id s))]> data) = true) as ->.
  { apply matches_approved. now rewrite lookup_insert_ne. }
  reflexivity.
Qed.

(** C1: for a limit of zero or more, whenever the query of the listing
    returns at least one document, the listing answers at most [limit]
    entries. *)
Theorem school_images_at_most_limit (s : SpecStore) (limit : Z)
    (docs : list document) :
  0 <= limit ->
  get_documents (DatabaseModule := SpecDatabase)
    "schoolimage" approved_filter limit s = inr docs ->
  docs <> [] ->
  exists imgs,
    school_images (Some s) limit = Ok (mkImages imgs)
    /\ length imgs = length docs
    /\ Z.of_nat (length imgs) <= limit.
Proof.
  intros Hl Q Hne. rewrite spec_listing.
  rewrite spec_query_approved in Q. injection Q as Q. rewrite Q.
  destruct docs as [ | d docs ]; [ contradiction | ].
  exists (project <$> d :: docs). split; [ reflexivity | ].
  rewrite length_fmap. split; [ reflexivity | ].
  rewrite <- Q, length_take. lia.
Qed.

(** C4: whatever the store holds, and with or without a handle, the
    listing answers either the placeholder list or the entries of
    documents that are in the collection with approved = true; no entry
    comes from a document with approved = false. *)
Theorem school_images_only_approved (db : option SpecStore) (limit : Z) :
  exists imgs,
    school_images db limit = Ok (mkImages imgs)
    /\ (imgs = placeholders
        \/ exists (s : SpecStore) (docs : list document),
             db = Some s
             /\ imgs = project <$> docs
             /\ forall d : document,
                  d ∈ docs ->
                  d ∈ collection "schoolimage" s
                  /\ d !! "approved" = Some (VBool true)
                  /\ d !! "approved" <> Some (VBool false)).
Proof.
  destruct db as [ s | ].
  - rewrite spec_listing.
    destruct (take (Z.to_nat limit) (approved_docs s)) as [ | d docs ] eqn:T.
    + exists placeholders. split; [ reflexivity | now left ].
    + exists (project <$> d :: docs). split; [ reflexivity | ].
      right. exists s, (d :: docs). split; [ reflexivity | ].
      split; [ reflexivity | ].
      intros d' Hd'. rewrite <- T in Hd'.
      apply subseteq_take, approved_docs_spec in Hd' as [ Hc Ha ].
      split_and!; [ exact Hc | exact Ha | rewrite Ha; discriminate ].
  - exists placeholders. split; [ reflexivity | now left ].
Qed.

(** C5: a payload built without the approved field is stored with
    approved = true, and a listing whose limit exceeds the number of
    approved documents held before the creation includes the entry made of
    the url object of the payload, the title that was sent (null when it
    was left out) and the tags that were sent (the empty list when they
    were left out, null when null was sent). *)
Theorem create_then_list (s : SpecStore) (u : HttpUrl)
    (t : option (option string)) (tg : option (option (list string)))
    (limit : Z) :
  let payload := SchoolImageIn_init u t tg None in
  Z.of_nat (length (approved_docs s)) < limit ->
  exists (new_id : string) (s' : SpecStore) (imgs : list document),
    approved payload = true
    /\ add_school_image (Some s) payload = (Ok (mkId new_id), Some s')
    /\ school_images (Some s') limit = Ok (mkImages imgs)
    /\ ({[ "url" := VUrl u;
           "title" := match t with
                      | Some (Some text) => VStr text
                      | Some None | None => VNone
                      end;
           "tags" := match tg with
                     | Some (Some l) => VList (VStr <$> l)
                     | Some None => VNone
                     | None => VList []
                     end ]} : document) ∈ imgs.
Proof.
  intros payload Hl.
  exists (pretty (next_id s)),
         (spec_create_document "schoolimage" (model_dump payload) s).2,
         (project <$>
            (approved_docs s
               ++ [<["_id" := VObjectId (pretty (next_id s))]>
                     (model_dump payload)])%list).
  split_and!; [ reflexivity | reflexivity | | ].
  - rewrite spec_listing.
    rewrite approved_docs_after_insert
      by (unfold model_dump; now simplify_map_eq).
    rewrite take_ge by (rewrite length_app; simpl; lia).
    now destruct (approved_docs s).
  - rewrite fmap_app. apply elem_of_app. right.
    apply list_elem_of_singleton.
    unfold project, dict_get, model_dump, payload.
    destruct t as [ [ text | ] | ], tg as [ [ l | ] | ];
      now simplify_map_eq.
Qed.

(** ** The theorems at concrete stores *)

(** The scenario of the specification: after posting the gym picture to
    an empty store, a listing with [limit = 1] answers it as sole entry. *)
Example scenario_post_then_get :
  let payload :=
    SchoolImageIn_init (mkHttpUrl "https://example.com/a.jpg")
      (Some (Some "Gym")) (Some (Some ["gym"])) None in
  exists s',
    add_school_image (Some empty_store) payload = (Ok (mkId "0"), Some s')
    /\ school_images (Some s') 1 =
         Ok (mkImages [ {[ "url" := VUrl (mkHttpUrl "https://example.com/a.jpg");
                           "title" := VStr "Gym";
                           "tags" := VList [VStr "gym"] ]} ]).
Proof.
  eexists. split; [ reflexivity | ]. vm_compute. reflexivity.
Qed.

(** With a cap of zero the modelled query returns nothing, so a store
    that holds approved documents is listed as the placeholders. *)
Example listing_with_limit_zero :
  school_images (Some (store_of [doc_gym; doc_lab])) 0
  = Ok (mkImages placeholders).
Proof. vm_compute. reflexivity. Qed.

(** A handle whose server is unreachable: the listing answers 500 with
    the text of the exception, creation likewise. *)
Example listing_with_failing_store :
  let e := Exception "ServerSelectionTimeoutError" "connection refused" in
  school_images (DB := failing_database e) (Some tt) 12
  = HTTPException 500 "connection refused"
  /\ add_school_image (DB := failing_database e) (Some tt)
       (SchoolImageIn_init (mkHttpUrl "https://example.com/a.jpg")
          None None None)
     = (HTTPException 500 "connection refused", Some tt).
Proof. split; reflexivity. Qed.

(** Over the modelled store, the record found in the collection after a
    creation without title holds null under title. *)
Lemma stored_record_title_null (s : SpecStore) (u : HttpUrl)
    (tg : option (option (list string))) (a : option bool) :
  exists (new_id : string) (s' : SpecStore) (r : document),
    add_school_image (Some s) (SchoolImageIn_init u None tg a)
      = (Ok (mkId new_id), Some s')
    /\ last (collection "schoolimage" s') = Some r
    /\ r !! "title" = Some VNone.
Proof.
  exists (pretty (next_id s)),
         (spec_create_document "schoolimage"
            (model_dump (SchoolImageIn_init u None tg a)) s).2,
         (<["_id" := VObjectId (pretty (next_id s))]>
            (model_dump (SchoolImageIn_init u None tg a))).
  split; [ reflexivity | ].
  rewrite collection_after_insert, last_snoc. split; [ reflexivity | ].
  unfold model_dump. now simplify_map_eq.
Qed.

Lemma school_images_at_most_limit_witness :
  let s := store_of [doc_gym; doc_hidden; doc_lab] in
  0 <= 1
  /\ get_documents (DatabaseModule := SpecDatabase)
       "schoolimage" approved_filter 1 s = inr [doc_gym]
  /\ [doc_gym] <> []
  /\ exists imgs,
       school_images (Some s) 1 = Ok (mkImages imgs)
       /\ length imgs = length [doc_gym]
       /\ Z.of_nat (length imgs) <= 1.
Proof.
  intros s.
  assert (0 <= 1) as H0 by lia.
  assert (get_documents (DatabaseModule := SpecDatabase)
            "schoolimage" approved_filter 1 s = inr [doc_gym]) as H1
    by (vm_compute; reflexivity).
  assert ([doc_gym] <> []) as H2 by discriminate.
  split_and!; [ exact H0 | exact H1 | exact H2 | ].
  exact (school_images_at_most_limit s 1 [doc_gym] H0 H1 H2).
Defined.

Lemma school_images_empty_result_witness :
  get_documents (DatabaseModule := SpecDatabase)
    "schoolimage" approved_filter 12 (store_of [doc_hidden]) = inr []
  /\ school_images (Some (store_of [doc_hidden])) 12
     = Ok (mkImages placeholders)
  /\ school_images (Some (store_of [doc_hidden])) 12
     = school_images (DB := SpecDatabase) None 12.
Proof.
  assert (get_documents (DatabaseModule := SpecDatabase)
            "schoolimage" approved_filter 12 (store_of [doc_hidden]) = inr [])
    as H by (vm_compute; reflexivity).
  split; [ exact H | ].
  exact (school_images_empty_result (DB := SpecDatabase)
           (store_of [doc_hidden]) 12 H).
Defined.

Lemma create_then_list_witness :
  let s := store_of [doc_gym; doc_hidden] in
  let u := mkHttpUrl "https://example.com/" in
  let payload :=
    SchoolImageIn_init u (Some (Some "Library")) (Some (Some ["books"]))
      None in
  Z.of_nat (length (approved_docs s)) < 12
  /\ exists (new_id : string) (s' : SpecStore) (imgs : list document),
       approved payload = true
       /\ add_school_image (Some s) payload = (Ok (mkId new_id), Some s')
       /\ school_images (Some s') 12 = Ok (mkImages imgs)
       /\ ({[ "url" := VUrl (mkHttpUrl "https://example.com/");
              "title" := VStr "Library";
              "tags" := VList [VStr "books"] ]} : document) ∈ imgs.
Proof.
  intros s u payload.
  assert (Z.of_nat (length (approved_docs s)) < 12) as H
    by (vm_compute; reflexivity).
  split; [ exact H | ].
  exact (create_then_list s u (Some (Some "Library"))
           (Some (Some ["books"])) 12 H).
Defined.

Lemma school_images_projects_witness :
  let s := store_of [doc_gym; doc_sparse] in
  get_documents (DatabaseModule := SpecDatabase)
    "schoolimage" approved_filter 5 s = inr [doc_gym; doc_sparse]
  /\ [doc_gym; doc_sparse] !! 1%nat = Some doc_sparse
  /\ exists (imgs : list document) (e : document),
       school_images (Some s) 5 = Ok (mkImages imgs)
       /\ length imgs = length [doc_gym; doc_sparse]
       /\ imgs !! 1%nat = Some e
       /\ dom e = ({[ "url"; "title"; "tags" ]} : gset string)
       /\ e !! "url" = Some (dict_get doc_sparse "url" VNone)
       /\ e !! "title" = Some (dict_get doc_sparse "title" VNone)
       /\ e !! "tags" = Some (dict_get doc_sparse "tags" (VList []))
       /\ e !! "approved" = None
       /\ e !! "_id" = None
       /\ (forall key : string,
             key <> "url" -> key <> "title" -> key <> "tags" ->
             e !! key = None).
Proof.
  intros s.
  assert (get_documents (DatabaseModule := SpecDatabase)
            "schoolimage" approved_filter 5 s = inr [doc_gym; doc_sparse])
    as H1 by (vm_compute; reflexivity).
  assert ([doc_gym; doc_sparse] !! 1%nat = Some doc_sparse) as H2
    by reflexivity.
  split_and!; [ exact H1 | exact H2 | ].
  exact (school_images_projects (DB := SpecDatabase) s 5
           [doc_gym; doc_sparse] 1 doc_sparse H1 H2).
Defined.

Lemma school_images_projection_total_witness :
  let s := store_of [doc_gym; doc_sparse] in
  let docs := [doc_gym; doc_sparse] in
  get_documents (DatabaseModule := SpecDatabase)
    "schoolimage" approved_filter 5 s = inr docs
  /\ school_images (Some s) 5
     = Ok (mkImages
             [ {[ "url" := VStr "https://example.com/a.jpg";
                  "title" := VStr "Gym"; "tags" := VList [VStr "gym"] ]};
               {[ "url" := VNone; "title" := VNone; "tags" := VNone ]} ])
  /\ (exists imgs, school_images (Some s) 5 = Ok (mkImages imgs))
  /\ (forall (i : nat) (d : document),
        docs !! i = Some d ->
        exists (imgs : list document) (e : document),
          school_images (Some s) 5 = Ok (mkImages imgs)
          /\ imgs !! i = Some e
          /\ (d !! "url" = None -> e !! "url" = Some VNone)
          /\ (d !! "title" = None -> e !! "title" = Some VNone)
          /\ (d !! "tags" = None -> e !! "tags" = Some (VList []))
          /\ (d !! "tags" = Some VNone -> e !! "tags" = Some VNone)
          /\ (forall v : value, d !! "tags" = Some v -> e !! "tags" = Some v)).
Proof.
  intros s docs.
  assert (get_documents (DatabaseModule := SpecDatabase)
            "schoolimage" approved_filter 5 s = inr docs)
    as H1 by (vm_compute; reflexivity).
  split; [ exact H1 | ]. split; [ vm_compute; reflexivity | ].
  exact (school_images_projection_total (DB := SpecDatabase) s 5 docs H1).
Defined.

(** ** More on the two handlers, over any database module *)

Section HandlerOutcomes.
Context {DB : DatabaseModule}.

Lemma placeholder_dom (u t : string) (tg : list string) :
  dom (placeholder u t tg) = ({[ "url"; "title"; "tags" ]} : gset string).
Proof.
  unfold placeholder. rewrite !dom_insert_L, dom_singleton_L. set_solver.
Qed.

(** X1: the listing never answers an empty list: it answers a 500 or a
    body whose images list has at least one entry. *)
Theorem school_images_never_empty (db : option Store) (limit : Z) :
  (exists detail, school_images db limit = HTTPException 500 detail)
  \/ (exists imgs,
        school_images db limit = Ok (mkImages imgs)
        /\ imgs <> []
        /\ (1 <= length imgs)%nat).
Proof.
  unfold school_images.
  destruct (collect_images db limit) as [ e | [ | img imgs ] ].
  - left. now exists (str e).
  - right. exists placeholders. split_and!; [ reflexivity | discriminate | ].
    simpl. lia.
  - right. exists (img :: imgs).
    split_and!; [ reflexivity | discriminate | simpl; lia ].
Qed.

(** X2: every entry of every body the listing answers, placeholder or
    not, has exactly the keys url, title and tags. *)
Theorem school_images_entry_keys (db : option Store) (limit : Z)
    (imgs : list document) (e : document) :
  school_images db limit = Ok (mkImages imgs) ->
  e ∈ imgs ->
  dom e = ({[ "url"; "title"; "tags" ]} : gset string).
Proof.
  unfold school_images, collect_images. intros R He.
  assert (forall p : document, p ∈ placeholders ->
            dom p = ({[ "url"; "title"; "tags" ]} : gset string)) as HP.
  { intros p Hp. unfold placeholders in Hp.
    repeat (apply elem_of_cons in Hp as [ -> | Hp ];
            [ apply placeholder_dom | ]).
    now apply elem_of_nil in Hp. }
  destruct db as [ s | ].
  - destruct (get_documents "schoolimage" approved_filter limit s)
      as [ x | [ | d docs ] ]; [ discriminate R | | ].
    + injection R as <-. now apply HP.
    + injection R as <-.
      change (e ∈ project <$> d :: docs) in He.
      apply list_elem_of_fmap in He as (d' & -> & _). apply project_dom.
  - injection R as <-. now apply HP.
Qed.

(** X3: what creation answers.  An error is either the 503 of a missing
    handle or the 500 of an insertion that raised, with the text of the
    exception; an id is answered exactly when the insertion returned it;
    the handle is lost or gained by no call. *)
Theorem add_school_image_outcomes (db : option Store)
    (payload : SchoolImageIn) :
  (forall (code : Z) (detail : string),
     (add_school_image db payload).1 = HTTPException code detail <->
     (db = None /\ code = 503 /\ detail = "Database not available")
     \/ (exists (s : Store) (e : PyException),
           db = Some s
           /\ (create_document "schoolimage" (model_dump payload) s).1 = inl e
           /\ code = 500 /\ detail = str e))
  /\ (forall new_id : string,
        (add_school_image db payload).1 = Ok (mkId new_id) <->
        exists s : Store,
          db = Some s
          /\ (create_document "schoolimage" (model_dump payload) s).1
             = inr new_id)
  /\ (is_Some (add_school_image db payload).2 <-> is_Some db).
Proof.
  unfold add_school_image. destruct db as [ s | ].
  - destruct (create_document "schoolimage" (model_dump payload) s)
      as [ [ e | new_id ] s' ] eqn:C; simpl; split_and!.
    + intros code detail. split.
      * intros [= <- <-]. right. exists s, e. now rewrite C.
      * intros [ (D & _) | (s0 & e0 & [= <-] & E & -> & ->) ];
          [ discriminate D | ].
        rewrite C in E. simpl in E. now injection E as <-.
    + intros new_id. split; [ discriminate | ].
      intros (s0 & [= <-] & E). rewrite C in E. discriminate E.
    + split; intros _; eauto.
    + intros code detail. split; [ discriminate | ].
      intros [ (D & _) | (s0 & e0 & [= <-] & E & _) ];
        [ discriminate D | ].
      rewrite C in E. discriminate E.
    + intros i. split.
      * intros [= <-]. exists s. now rewrite C.
      * intros (s0 & [= <-] & E). rewrite C in E. simpl in E.
        now injection E as <-.
    + split; intros _; eauto.
  - simpl. split_and!.
    + intros code detail. split.
      * intros [= <- <-]. now left.
      * intros [ (_ & -> & ->) | (s0 & e0 & D & _) ];
          [ reflexivity | discriminate D ].
    + intros i. split; [ discriminate | ]. intros (s0 & D & _). discriminate D.
    + split; intros [ x D ]; discriminate D.
Qed.

End HandlerOutcomes.

(** ** The schema and the projection together *)

Lemma fmap_VStr_inj (l1 l2 : list string) :
  VStr <$> l1 = VStr <$> l2 -> l1 = l2.
Proof.
  revert l2. induction l1 as [ | a l1 IH ]; intros [ | b l2 ] E;
    try discriminate E; [ reflexivity | ].
  injection E as -> E. f_equal. now apply IH.
Qed.

(** X4: [model_dump] loses nothing: two payloads have the same dump
    exactly when they are the same payload. *)
Theorem model_dump_inj (p q : SchoolImageIn) :
  model_dump p = model_dump q <-> p = q.
Proof.
  split; [ | now intros -> ].
  intros E.
  assert (forall key, model_dump p !! key = model_dump q !! key) as L
    by (intros key; now rewrite E).
  pose proof (L "url") as Eu. pose proof (L "title") as Et.
  pose proof (L "tags") as Eg. pose proof (L "approved") as Ea.
  unfold model_dump in Eu, Et, Eg, Ea. simplify_map_eq.
  destruct p as [ pu pt pg pa ], q as [ qu qt qg qa ]. simpl in *.
  assert (pt = qt) as ->.
  { destruct pt, qt; simpl in *; congruence. }
  assert (pg = qg) as ->.
  { destruct pg as [ l1 | ], qg as [ l2 | ]; simpl in *;
      try discriminate; [ | reflexivity ].
    f_equal. apply fmap_VStr_inj. congruence. }
  congruence.
Qed.

(** X5: a stored record that still holds the url, title and tags of the
    payload it was dumped from is listed as that dump without approved,
    whatever else the store added to it or changed in it. *)
Theorem project_of_dumped (payload : SchoolImageIn) (d : document) :
  d !! "url" = model_dump payload !! "url" ->
  d !! "title" = model_dump payload !! "title" ->
  d !! "tags" = model_dump payload !! "tags" ->
  project d = delete "approved" (model_dump payload).
Proof.
  unfold model_dump. intros Hu Ht Hg. simplify_map_eq.
  unfold project, dict_get. rewrite Hu, Ht, Hg.
  apply map_eq. intros key.
  destruct (decide (key = "approved")) as [ -> | Na ];
    [ now simplify_map_eq | ].
  rewrite lookup_delete_ne by congruence.
  destruct (decide (key = "url")) as [ -> | Nu ]; [ now simplify_map_eq | ].
  destruct (decide (key = "title")) as [ -> | Nt ]; [ now simplify_map_eq | ].
  destruct (decide (key = "tags")) as [ -> | Ng ]; [ now simplify_map_eq | ].
  now simplify_map_eq.
Qed.

Lemma project_of_dumped_witness :
  let payload :=
    SchoolImageIn_init (mkHttpUrl "https://example.com/e.jpg") None
      (Some None) (Some false) in
  let d : document :=
    <["_id" := VObjectId "7"]>
      (<["created_at" := VInt 1700000000]>
         (<["approved" := VBool true]> (model_dump payload))) in
  d !! "url" = model_dump payload !! "url"
  /\ d !! "title" = model_dump payload !! "title"
  /\ d !! "tags" = model_dump payload !! "tags"
  /\ project d = delete "approved" (model_dump payload).
Proof.
  intros payload d.
  assert (d !! "url" = model_dump payload !! "url") as H1
    by (vm_compute; reflexivity).
  assert (d !! "title" = model_dump payload !! "title") as H2
    by (vm_compute; reflexivity).
  assert (d !! "tags" = model_dump payload !! "tags") as H3
    by (vm_compute; reflexivity).
  split_and!; [ exact H1 | exact H2 | exact H3 | ].
  exact (project_of_dumped payload d H1 H2 H3).
Defined.

Lemma school_images_entry_keys_witness :
  let s := store_of [doc_hidden; doc_sparse] in
  let e : document := {[ "url" := VNone; "title" := VNone; "tags" := VNone ]} in
  school_images (Some s) 3 = Ok (mkImages [e])
  /\ e ∈ [e]
  /\ dom e = ({[ "url"; "title"; "tags" ]} : gset string).
Proof.
  intros s e.
  assert (school_images (Some s) 3 = Ok (mkImages [e])) as H1
    by (vm_compute; reflexivity).
  assert (e ∈ [e]) as H2 by (apply list_elem_of_singleton; reflexivity).
  split_and!; [ exact H1 | exact H2 | ].
  exact (school_images_entry_keys (DB := SpecDatabase) (Some s) 3 [e] e H1 H2).
Defined.

(** ** The diagnostic endpoint *)

Lemma slice_to_char_length (n : nat) (text : string) :
  char_length (slice_to n text) = Nat.min n (char_length text).
Proof.
  revert n. induction text as [ | c rest IH ]; intros n; simpl.
  - now rewrite Nat.min_0_r.
  - destruct (continuation_byte c) eqn:C; simpl; rewrite ?C.
    + apply IH.
    + destruct n as [ | n ]; simpl; [ reflexivity | ].
      rewrite C. now rewrite IH.
Qed.

Lemma slice_to_prefix (n : nat) (text : string) :
  exists rest,
    text = slice_to n text ++ rest /\ begins_character rest = true.
Proof.
  revert n. induction text as [ | c tl IH ]; intros n.
  - now exists "".
  - simpl. destruct (continuation_byte c) eqn:C.
    + destruct (IH n) as (rest & E & B). exists rest. split; [ | exact B ].
      change (String c tl = String c (slice_to n tl ++ rest)).
      f_equal. exact E.
    + destruct n as [ | n ].
      * exists (String c tl). split; [ reflexivity | ].
        simpl. now rewrite C.
      * destruct (IH n) as (rest & E & B). exists rest.
        split; [ | exact B ].
        change (String c tl = String c (slice_to n tl ++ rest)).
        f_equal. exact E.
Qed.

Lemma slice_to_short (n : nat) (text : string) :
  (char_length text <= n)%nat -> slice_to n text = text.
Proof.
  revert n. induction text as [ | c tl IH ]; intros n L; simpl in *;
    [ reflexivity | ].
  destruct (continuation_byte c).
  - f_equal. now apply IH.
  - destruct n as [ | n ]; [ lia | ]. f_equal. apply IH. lia.
Qed.

Lemma env_flag_set (env : environ) (key : string) :
  env_flag env key = VStr "✅ Set" <->
  exists v, env !! key = Some v /\ v <> "".
Proof.
  unfold env_flag, getenv, truthy.
  destruct (env !! key) as [ [ | c v ] | ]; split;
    try discriminate; try (intros _; eexists; split; [ reflexivity | discriminate ]);
    try reflexivity.
  - intros (v & [= <-] & N). now destruct N.
  - intros (v & D & _). discriminate D.
Qed.

Lemma env_flag_not_set (env : environ) (key : string) :
  env_flag env key = VStr "❌ Not Set" <->
  env !! key = None \/ env !! key = Some "".
Proof.
  unfold env_flag, getenv, truthy.
  destruct (env !! key) as [ [ | c v ] | ]; split;
    try discriminate; try (intros _; now (left + right)); try reflexivity.
  intros [ D | D ]; discriminate D.
Qed.

Lemma test_database_url (o : import_outcome) (env : environ) :
  test_database o env !! "database_url" = Some (env_flag env "DATABASE_URL").
Proof. unfold test_database. now simplify_map_eq. Qed.

Lemma test_database_name (o : import_outcome) (env : environ) :
  test_database o env !! "database_name" = Some (env_flag env "DATABASE_NAME").
Proof. unfold test_database. now simplify_map_eq. Qed.

(** The keys the environment check does not write are as the inspection
    left them. *)
Lemma test_database_other (o : import_outcome) (env : environ)
    (key : string) :
  key <> "database_url" -> key <> "database_name" ->
  test_database o env !! key = inspect_database o initial_response !! key.
Proof.
  intros N1 N2. unfold test_database.
  now rewrite !lookup_insert_ne by congruence.
Qed.

(** X6: the fields database_url and database_name of the diagnostic
    depend on the environment alone.  Each is "✅ Set" exactly when its
    variable is set to a non-empty string and "❌ Not Set" otherwise (a
    variable set to the empty string counts as not set); what the branch
    of a present handle wrote there, the name of the database included,
    never reaches the response. *)
Theorem test_database_env_fields (o : import_outcome) (env : environ) :
  (test_database o env !! "database_url" = Some (VStr "✅ Set") <->
     exists v, env !! "DATABASE_URL" = Some v /\ v <> "")
  /\ (test_database o env !! "database_url" = Some (VStr "❌ Not Set") <->
        env !! "DATABASE_URL" = None \/ env !! "DATABASE_URL" = Some "")
  /\ (test_database o env !! "database_name" = Some (VStr "✅ Set") <->
        exists v, env !! "DATABASE_NAME" = Some v /\ v <> "")
  /\ (test_database o env !! "database_name" = Some (VStr "❌ Not Set") <->
        env !! "DATABASE_NAME" = None \/ env !! "DATABASE_NAME" = Some "")
  /\ (forall o' : import_outcome,
        test_database o' env !! "database_url"
          = test_database o env !! "database_url"
        /\ test_database o' env !! "database_name"
          = test_database o env !! "database_name").
Proof.
  split_and!.
  - rewrite test_database_url.
    etransitivity; [ | apply env_flag_set ].
    split; [ intros E; congruence | now intros -> ].
  - rewrite test_database_url.
    etransitivity; [ | apply env_flag_not_set ].
    split; [ intros E; congruence | now intros -> ].
  - rewrite test_database_name.
    etransitivity; [ | apply env_flag_set ].
    split; [ intros E; congruence | now intros -> ].
  - rewrite test_database_name.
    etransitivity; [ | apply env_flag_not_set ].
    split; [ intros E; congruence | now intros -> ].
  - intros o'. now rewrite !test_database_url, !test_database_name.
Qed.

(** X7: whatever the import and the probe do, the diagnostic answers a
    dict with exactly its six keys, and backend is "✅ Running". *)
Theorem test_database_keys (o : import_outcome) (env : environ) :
  dom (test_database o env)
    = ({[ "backend"; "database"; "database_url"; "database_name";
          "connection_status"; "collections" ]} : gset string)
  /\ test_database o env !! "backend" = Some (VStr "✅ Running").
Proof.
  split.
  - unfold test_database, inspect_database, probe_collections,
      initial_response.
    destruct o as [ | e | [ h | ] ];
      [ | | destruct (list_collection_names h) as [ e | names ] | ];
      rewrite !dom_insert_L, dom_singleton_L; set_solver.
  - rewrite test_database_other by discriminate.
    unfold inspect_database, probe_collections, initial_response.
    destruct o as [ | e | [ h | ] ];
      [ | | destruct (list_collection_names h) as [ e | names ] | ];
      now simplify_map_eq.
Qed.

(** X8: the field collections holds at most ten names: the first ten of
    what the probe returned, and nothing when there is no handle or the
    probe raised. *)
Theorem test_database_collections (o : import_outcome) (env : environ) :
  exists l : list string,
    test_database o env !! "collections" = Some (VList (VStr <$> l))
    /\ (length l <= 10)%nat
    /\ (forall (h : DbHandle) (names : list string),
          o = Imported (Some h) ->
          list_collection_names h = inr names ->
          l = take 10 names
          /\ ((length names <= 10)%nat -> l = names))
    /\ (l <> [] ->
        exists (h : DbHandle) (names : list string),
          o = Imported (Some h) /\ list_collection_names h = inr names).
Proof.
  rewrite test_database_other by discriminate.
  unfold inspect_database, probe_collections, initial_response.
  destruct o as [ | e | [ h | ] ];
    [ | | destruct (list_collection_names h) as [ e | names ] eqn:P | ].
  1,2,3,5: exists []; simplify_map_eq;
    (split_and!; [ reflexivity | simpl; lia | | intros N; now destruct N ]);
    intros h' names' D; try discriminate D; intros P';
    injection D as <-; rewrite P in P'; discriminate P'.
  exists (take 10 names). simplify_map_eq. split_and!.
  - reflexivity.
  - rewrite length_take. lia.
  - intros h' names' [= <-] P'. rewrite P in P'. injection P' as <-.
    split; [ reflexivity | ]. intros L. now apply take_ge.
  - intros _. now exists h, names.
Qed.

(** X9: connection_status is "Connected" exactly when the import gave a
    handle, also when the probe of that handle raises; it is
    "Not Connected" in every other case. *)
Theorem test_database_connection_status (o : import_outcome)
    (env : environ) :
  (test_database o env !! "connection_status" = Some (VStr "Connected") <->
     exists h : DbHandle, o = Imported (Some h))
  /\ (test_database o env !! "connection_status"
        = Some (VStr "Not Connected") <->
      forall h : DbHandle, o <> Imported (Some h)).
Proof.
  rewrite test_database_other by discriminate.
  unfold inspect_database, probe_collections, initial_response.
  destruct o as [ | e | [ h | ] ];
    [ | | destruct (list_collection_names h) as [ e | names ] | ];
    simplify_map_eq; split; split;
    try discriminate; try (intros [ h' D ]; discriminate D);
    try (intros _ h' D; discriminate D);
    try (intros _; now eexists);
    try (intros N; now destruct (N h));
    try reflexivity.
Qed.

(** X10: database reads "✅ Connected & Working" exactly when the import
    gave a handle and the probe of its collections returned. *)
Theorem test_database_working (o : import_outcome) (env : environ) :
  test_database o env !! "database" = Some (VStr "✅ Connected & Working")
  <-> exists (h : DbHandle) (names : list string),
        o = Imported (Some h) /\ list_collection_names h = inr names.
Proof.
  rewrite test_database_other by discriminate.
  unfold inspect_database, probe_collections, initial_response.
  destruct o as [ | e | [ h | ] ];
    [ | | destruct (list_collection_names h) as [ e | names ] eqn:P | ];
    simplify_map_eq; split;
    try (intros (h' & names' & D & _); discriminate D);
    try (simpl; discriminate).
  - intros (h' & names' & [= <-] & P'). rewrite P in P'. discriminate P'.
  - intros _. now exists h, names.
  - reflexivity.
Qed.

(** X11: no response shows the value database starts with,
    "❌ Not Available", nor the "✅ Available" written before the probe,
    nor the null that database_url and database_name start with. *)
Theorem test_database_initial_overwritten (o : import_outcome)
    (env : environ) :
  test_database o env !! "database" <> Some (VStr "❌ Not Available")
  /\ test_database o env !! "database" <> Some (VStr "✅ Available")
  /\ test_database o env !! "database_url" <> Some VNone
  /\ test_database o env !! "database_name" <> Some VNone.
Proof.
  rewrite test_database_url, test_database_name.
  rewrite test_database_other by discriminate.
  split_and!; try (unfold env_flag; discriminate).
  - unfold inspect_database, probe_collections, initial_response.
    destruct o as [ | e | [ h | ] ];
      [ | | destruct (list_collection_names h) as [ e | names ] | ];
      simplify_map_eq; simpl; discriminate.
  - unfold inspect_database, probe_collections, initial_response.
    destruct o as [ | e | [ h | ] ];
      [ | | destruct (list_collection_names h) as [ e | names ] | ];
      simplify_map_eq; simpl; discriminate.
Qed.

(** X12: the text of an exception is reported cut to its first fifty
    characters, after a fixed prefix: "❌ Error: " when the import raised
    something other than ImportError, "⚠️  Connected but Error: " when the
    probe raised.  Characters are counted, not bytes: the cut never falls
    inside a character, and a text of fifty characters or fewer is shown
    whole. *)
Theorem test_database_error_text (o : import_outcome) (env : environ) :
  (forall e : PyException,
     o = ImportRaises e ->
     exists shown rest : string,
       test_database o env !! "database"
         = Some (VStr ("❌ Error: " ++ shown))
       /\ str e = shown ++ rest
       /\ begins_character rest = true
       /\ char_length shown = Nat.min 50 (char_length (str e))
       /\ ((char_length (str e) <= 50)%nat -> shown = str e))
  /\ (forall (h : DbHandle) (e : PyException),
        o = Imported (Some h) ->
        list_collection_names h = inl e ->
        exists shown rest : string,
          test_database o env !! "database"
            = Some (VStr ("⚠️  Connected but Error: " ++ shown))
          /\ str e = shown ++ rest
          /\ begins_character rest = true
          /\ char_length shown = Nat.min 50 (char_length (str e))
          /\ ((char_length (str e) <= 50)%nat -> shown = str e)).
Proof.
  split.
  - intros e ->. destruct (slice_to_prefix 50 (str e)) as (rest & E & B).
    exists (slice_to 50 (str e)), rest.
    split_and!;
      [ | exact E | exact B | apply slice_to_char_length
        | apply slice_to_short ].
    rewrite test_database_other by discriminate.
    unfold inspect_database. now simplify_map_eq.
  - intros h e -> P. destruct (slice_to_prefix 50 (str e)) as (rest & E & B).
    exists (slice_to 50 (str e)), rest.
    split_and!;
      [ | exact E | exact B | apply slice_to_char_length
        | apply slice_to_short ].
    rewrite test_database_other by discriminate.
    unfold inspect_database, probe_collections. rewrite P.
    now simplify_map_eq.
Qed.

(** Sixty characters of two bytes each: fifty of them are shown, that
    is a hundred bytes. *)
Example test_database_accents :
  test_database (Imported (Some handle_accents)) ∅ !! "database"
  = Some (VStr ("⚠️  Connected but Error: "
                ++ String.concat "" (replicate 50 "é")))
  /\ char_length (String.concat "" (replicate 60 "é")) = 60%nat
  /\ String.length (String.concat "" (replicate 50 "é")) = 100%nat.
Proof. split_and!; vm_compute; reflexivity. Qed.

(** The diagnostic at a handle whose server is down, with DATABASE_URL
    set to the empty string. *)
Example test_database_server_down :
  test_database (Imported (Some handle_down)) {[ "DATABASE_URL" := "" ]}
  = {[ "backend" := VStr "✅ Running";
       "database" :=
         VStr "⚠️  Connected but Error: localhost:27017: [Errno 111] Connection refused, T";
       "database_url" := VStr "❌ Not Set";
       "database_name" := VStr "❌ Not Set";
       "connection_status" := VStr "Connected";
       "collections" := VList [] ]}.
Proof. vm_compute. reflexivity. Qed.

(** The diagnostic at a working handle with twelve collections. *)
Example test_database_twelve_collections :
  test_database (Imported (Some handle_ok))
    {[ "DATABASE_URL" := "mongodb://localhost"; "DATABASE_NAME" := "school" ]}
    !! "collections"
  = Some (VList (VStr <$> ["c01"; "c02"; "c03"; "c04"; "c05";
                           "c06"; "c07"; "c08"; "c09"; "c10"])).
Proof. vm_compute. reflexivity. Qed.
